(** * Verification of app.py: requirement parsing, test generation and
    the tabular projection.

    A shallow embedding of the functions of [app.py], [parse_requirement],
    [generate_tests], [df_from_tests] and [download_bytes], and of the two
    branches of the page that call them.

    Python [str] values are embedded as [string], holding the UTF-8 encoding
    of the text.  Every keyword the program searches for is ASCII, and a
    UTF-8 encoded needle occurs in a UTF-8 encoded haystack as a run of bytes
    exactly when it occurs as a run of code points, so the byte-level
    substring test below is Python's [in] on these strings.

    Python dicts used as maps are [gmap string _]; dicts used as structs with
    a fixed set of keys (a test case, a table row) are records. *)

From Stdlib Require Import Ascii ZArith Lia DecimalString.
From stdpp Require Import base option list strings gmap fin_maps.

Local Open Scope Z_scope.

(** ** Python string operations *)

Module PyStr.

(** [s.startswith(prefix)] *)
Fixpoint startswith (s prefix : string) {struct prefix} : bool :=
  match prefix, s with
  | EmptyString, _ => true
  | String _ _, EmptyString => false
  | String a prefix', String b s' =>
      if Ascii.eqb a b then startswith s' prefix' else false
  end.

(** [sub in s]: [sub] starts at some position of [s]. *)
Fixpoint str_in (sub s : string) : bool :=
  startswith s sub ||
  match s with
  | EmptyString => false
  | String _ s' => str_in sub s'
  end.

(** What [str_in] decides: [sub] is a contiguous run of [s]. *)
Definition occurs_in (sub s : string) : Prop :=
  exists pre post : string, s = pre +:+ sub +:+ post.

(** [sep.join(items)] *)
Fixpoint join (sep : string) (items : list string) : string :=
  match items with
  | [] => ""
  | [x] => x
  | x :: rest => x +:+ sep +:+ join sep rest
  end.

(** [str.lower] on one ASCII character: [A]..[Z] move to [a]..[z]. *)
Definition lower_char (c : ascii) : ascii :=
  let n := nat_of_ascii c in
  if ((65 <=? n)%nat && (n <=? 90)%nat)%bool then ascii_of_nat (n + 32) else c.

(** [str.lower] restricted to what it does on ASCII text; bytes of
    non-ASCII characters are left alone. *)
Fixpoint ascii_lower (s : string) : string :=
  match s with
  | EmptyString => EmptyString
  | String c s' => String (lower_char c) (ascii_lower s')
  end.

Fixpoint is_ascii (s : string) : bool :=
  match s with
  | EmptyString => true
  | String c s' => (nat_of_ascii c <? 128)%nat && is_ascii s'
  end.

(** [a or b] on lists: the first operand unless it is empty. *)
Definition list_or {A} (a b : list A) : list A :=
  match a with
  | [] => b
  | _ :: _ => a
  end.

End PyStr.
Import PyStr.

(** ** JSON-like values held by the requirement dict *)

Inductive value : Type :=
  | VStr (s : string)
  | VList (l : list string).

(** ** parse_requirement *)

Definition msg_password : string :=
  "password complexity policy (inferred, confidence=0.84)".
Definition msg_lockout : string :=
  "max failed attempts before lockout (inferred, confidence=0.81)".
Definition msg_otp : string :=
  "otp mandatory policy (inferred, confidence=0.7)".
Definition msg_default : string :=
  "session timeout seconds (inferred, confidence=0.73)".

Definition clarifying : list string :=
  [ "Should OTP be mandatory for all admins or per-tenant configurable?";
    "What is the lockout threshold and lockout duration?";
    "What password complexity rules apply (length, charset, reuse, history)?" ].

Definition acceptance : list string :=
  [ "User can login with valid email and password";
    "Admin can enable OTP for login (inferred, confidence=0.78)";
    "Successful login redirects to dashboard" ].

(** The three guarded [missing.append(...)] statements, in program order. *)
Definition missing_of (text_l : string) : list string :=
  let missing := [] in
  let missing :=
    if str_in "password" text_l && negb (str_in "complex" text_l)
    then missing ++ [msg_password] else missing in
  let missing :=
    if str_in "lock" text_l && negb (str_in "attempt" text_l)
    then missing ++ [msg_lockout] else missing in
  let missing :=
    if str_in "otp" text_l && negb (str_in "mandatory" text_l)
    then missing ++ [msg_otp] else missing in
  missing.

Definition actors_of (text_l : string) : list string :=
  ["User"] ++ (if str_in "admin" text_l then ["Admin"] else []).

Definition functional_tags_of (text_l : string) : list string :=
  [ "authentication";
    if str_in "otp" text_l then "otp" else "login";
    if str_in "lock" text_l then "lockout" else "session" ].

Section Parser.

(** Python's built-in [str.lower].  It is Unicode-aware (it is not a
    character-wise map: a capital sigma lowers by context, and some
    non-ASCII letters lower to ASCII ones), so it is kept abstract. *)
Variable lower : string -> string.

Definition parse_requirement (text : string) : gmap string value :=
  let text_l := lower text in
  let actors := actors_of text_l in
  let missing := missing_of text_l in
  <["title" := VStr "Secure Login"]> (
  <["actors" := VList actors]> (
  <["functional_tags" := VList (functional_tags_of text_l)]> (
  <["nonfunctional_tags" := VList ["security"; "usability"]]> (
  <["acceptance_criteria" := VList acceptance]> (
  <["impacted_modules" :=
      VList ["auth-service"; "user-profile (inferred, confidence=0.62)"]]> (
  <["missing_info" := VList (list_or missing [msg_default])]> (
  <["clarifying_questions" := VList clarifying]> (
  <["risk" := VStr "High"]> (
  <["risk_reason" := VStr "Auth and lockout flows are security-critical; ambiguity can cause bypass or lockout issues"]> (
  <["assumptions" :=
      VList ["Email is unique username (inferred, confidence=0.65)"]]>
  ∅)))))))))).

End Parser.

Definition default_text : string :=
  "Users must login using email and password; admins can require OTP. Lock account after too many failures. Redirect to dashboard on success.".

(** ** generate_tests *)

(** A test case of the catalog.  The dict keys of the source are the field
    names below without the [tc_] prefix ([id] is taken in Rocq). *)
Record TestCase : Type := mkTestCase {
  tc_id : string;
  tc_title : string;
  tc_preconditions : list string;
  tc_steps : list string;
  tc_test_data : string;
  tc_expected : string;
  tc_risk : string;
  tc_automation_candidate : bool;
  tc_automation_reason : string
}.

Record TestDesign : Type := mkTestDesign {
  test_cases : list TestCase;
  summary : gmap string Z;
  assumptions : value
}.

Definition tests : list TestCase :=
  [ mkTestCase "TC001" "Valid login without OTP" ["OTP disabled for tenant"]
      ["1. Open login page"; "2. Enter valid email and password"; "3. Click Login"]
      "TD01" "User lands on dashboard" "High"
      true "Stable UI flow; high reuse";
    mkTestCase "TC002" "Valid login with OTP"
      ["OTP enabled for tenant"; "User enrolled in OTP"]
      ["1. Open login page"; "2. Enter valid credentials";
       "3. Provide valid OTP within time window"]
      "TD02" "Login succeeds and redirect to dashboard" "High"
      true "API-based OTP stub possible";
    mkTestCase "TC003" "Invalid password" []
      ["1. Open login page"; "2. Enter valid email and invalid password";
       "3. Click Login"]
      "TD03" "Error displayed; no login" "Medium"
      true "Simple negative path";
    mkTestCase "TC004" "OTP timeout" ["OTP enabled"]
      ["1. Login with valid credentials"; "2. Do not enter OTP";
       "3. Wait for timeout window to elapse"]
      "TD04" "OTP expires; user prompted to resend" "High"
      true "Can simulate clock or mock OTP";
    mkTestCase "TC005" "Account lockout after N failures"
      ["Lockout policy configured (inferred, confidence=0.8)"]
      ["1. Attempt login with invalid password N times";
       "2. Attempt login with valid password"]
      "TD05" "Account is locked; login blocked" "High"
      false "Lockout reset/stateful; may be slow";
    mkTestCase "TC006" "Boundary: password length min-1" []
      ["1. Enter password at min length minus one"; "2. Submit"]
      "TD06" "Validation error" "Low"
      true "Fast validation check";
    mkTestCase "TC007" "Exploratory: rapid successive logins" []
      ["1. Attempt multiple rapid logins with valid and invalid data";
       "2. Observe responses and rate limits"]
      "TD07" "System handles without instability" "Medium"
      false "Exploratory; less deterministic";
    mkTestCase "TC008" "State transition: locked -> unlocked after duration"
      ["Account locked"]
      ["1. Wait lockout duration"; "2. Attempt valid login"]
      "TD08" "Account unlocks; login succeeds" "Medium"
      true "Can fast-forward time with mocks" ].

(** [counts[k] += 1]: reading a key that is not in the dict raises
    [KeyError], here [None]. *)
Definition bump (counts : gmap string Z) (k : string) : option (gmap string Z) :=
  n ← counts !! k; Some (<[k := n + 1]> counts).

(** [for t in tests: counts[t["risk"]] += 1] *)
Fixpoint tally (counts : gmap string Z) (ts : list TestCase)
  : option (gmap string Z) :=
  match ts with
  | [] => Some counts
  | t :: ts' => counts' ← bump counts (tc_risk t); tally counts' ts'
  end.

Definition generate_tests (requirement_json : gmap string value)
  : option TestDesign :=
  counts ← tally (<["High" := 0]> (<["Medium" := 0]> (<["Low" := 0]> ∅))) tests;
  high ← counts !! "High";
  medium ← counts !! "Medium";
  low ← counts !! "Low";
  Some {| test_cases := tests;
          summary := <["high" := high]> (<["medium" := medium]> (<["low" := low]> ∅));
          assumptions := default (VList []) (requirement_json !! "assumptions") |}.

(** ** df_from_tests *)

(** One row of the data frame: the list-valued fields are flattened. *)
Record Row : Type := mkRow {
  row_id : string;
  row_title : string;
  row_preconditions : string;
  row_steps : string;
  row_test_data : string;
  row_expected : string;
  row_risk : string;
  row_automation_candidate : bool;
  row_automation_reason : string
}.

Definition row_of (t : TestCase) : Row :=
  {| row_id := tc_id t;
     row_title := tc_title t;
     row_preconditions := join "; " (tc_preconditions t);
     row_steps := join " | " (tc_steps t);
     row_test_data := tc_test_data t;
     row_expected := tc_expected t;
     row_risk := tc_risk t;
     row_automation_candidate := tc_automation_candidate t;
     row_automation_reason := tc_automation_reason t |}.

(** [rows = []; for t in ...: rows.append({...})]; the data frame built from
    [rows] is the list of rows itself. *)
Definition df_from_tests (tests_json : TestDesign) : list Row :=
  fold_left (fun rows t => rows ++ [row_of t]) (test_cases tests_json) [].

(** ** Specification-side definitions

    These follow the wording of the specification, to be compared with the
    definitions above, which follow the source. *)

(** What is assumed of [str.lower]: on ASCII-only text it is [ascii_lower]. *)
Definition agrees_on_ascii (lower : string -> string) : Prop :=
  forall s, is_ascii s = true -> lower s = ascii_lower s.

(** The three missing-info conditions on the lowercased text. *)
Definition cond_password (text_l : string) : bool :=
  str_in "password" text_l && negb (str_in "complex" text_l).
Definition cond_lockout (text_l : string) : bool :=
  str_in "lock" text_l && negb (str_in "attempt" text_l).
Definition cond_otp (text_l : string) : bool :=
  str_in "otp" text_l && negb (str_in "mandatory" text_l).

(** The ordered subset of the three condition messages whose condition
    holds. *)
Definition matched_messages (text_l : string) : list string :=
  (if cond_password text_l then [msg_password] else []) ++
  (if cond_lockout text_l then [msg_lockout] else []) ++
  (if cond_otp text_l then [msg_otp] else []).

(** The default message alone when no condition holds, the matched messages
    otherwise. *)
Definition spec_missing_info (text_l : string) : list string :=
  if cond_password text_l || cond_lockout text_l || cond_otp text_l
  then matched_messages text_l
  else [msg_default].

(** The keys of a requirement-analysis record. *)
Definition requirement_keys : gset string :=
  {[ "title"; "actors"; "functional_tags"; "nonfunctional_tags";
     "acceptance_criteria"; "impacted_modules"; "missing_info";
     "clarifying_questions"; "risk"; "risk_reason"; "assumptions" ]}.

(** How many cases of [ts] carry the risk [level]. *)
Definition risk_count (level : string) (ts : list TestCase) : Z :=
  Z.of_nat (length (filter (fun t => tc_risk t = level) ts)).

(** [f"{n:03d}"]: decimal digits, padded with zeros on the left to width 3. *)
Definition fmt_03d (n : nat) : string :=
  let digits := NilEmpty.string_of_uint (Nat.to_uint n) in
  String.concat "" (replicate (3 - String.length digits) "0") +:+ digits.

(** ** download_bytes *)

Module PyIO.

(** [s.endswith(suffix)]: some tail of [s] is [suffix]. *)
Fixpoint endswith (s suffix : string) : bool :=
  String.eqb s suffix ||
  match s with
  | EmptyString => false
  | String _ s' => endswith s' suffix
  end.

(** [io.BytesIO]: the bytes held and the stream position. *)
Record BytesIO : Type := mkBytesIO {
  getvalue : list Byte.byte;
  tell : nat
}.

(** [io.BytesIO()] *)
Definition BytesIO_new : BytesIO := mkBytesIO [] 0.

(** [b.write(data)]: [data] replaces the bytes from the position on, a
    buffer shorter than the position is filled with zero bytes up to it, and
    the position moves past [data]. *)
Definition write (b : BytesIO) (data : list Byte.byte) : BytesIO :=
  let pos := tell b in
  mkBytesIO
    (take pos (getvalue b)
       ++ replicate (pos - length (getvalue b))%nat Byte.x00
       ++ data
       ++ drop (pos + length data)%nat (getvalue b))
    (pos + length data)%nat.

(** [b.seek(pos)] *)
Definition seek (b : BytesIO) (pos : nat) : BytesIO :=
  mkBytesIO (getvalue b) pos.

(** [b.read()]: the bytes from the position to the end; the position moves
    to the end. *)
Definition read (b : BytesIO) : list Byte.byte * BytesIO :=
  (drop (tell b) (getvalue b),
   mkBytesIO (getvalue b) (Nat.max (tell b) (length (getvalue b)))).

End PyIO.
Import PyIO.

Section Download.

(** The objects [download_bytes] may be given: any Python object. *)
Variable pyobj : Type.

(** [json.dumps(obj, indent=2)]; [None] when the call raises (an object that
    json cannot serialise). *)
Variable dumps : pyobj -> option string.

(** [s.encode("utf-8")] on a [str]; [None] when the call raises
    [UnicodeEncodeError] (a lone surrogate in [s]). *)
Variable encode : string -> option (list Byte.byte).

(** [obj.encode("utf-8")] on the object itself; [None] when the call raises:
    [AttributeError] for an object without [encode] (a dict, a list, a
    number), [UnicodeEncodeError] for a [str] that holds a lone surrogate. *)
Variable obj_encode : pyobj -> option (list Byte.byte).

(** An exception of either branch leaves the function before [seek] and
    [return], here [None].  The source's default for [filename] is
    "data.json". *)
Definition download_bytes (obj : pyobj) (filename : string) : option BytesIO :=
  let b := BytesIO_new in
  b ← (if endswith filename ".json"
       then s ← dumps obj; data ← encode s; Some (write b data)
       else data ← obj_encode obj; Some (write b data));
  Some (seek b 0).

End Download.

(** ** The page: requirement summary rows, clarifications, the two modes *)

(** A byte of the form 10xxxxxx continues a UTF-8 encoded character. *)
Definition is_continuation (c : ascii) : bool :=
  let n := nat_of_ascii c in
  ((128 <=? n)%nat && (n <? 192)%nat)%bool.

(** Iterating over a [str] yields its characters, each a [str]. *)
Fixpoint chars_of (s : string) : list string :=
  match s with
  | EmptyString => []
  | String c s' =>
      let rest := chars_of s' in
      let continued :=
        match s' with
        | String d _ => is_continuation d
        | EmptyString => false
        end in
      match rest with
      | h :: t => if continued then String c h :: t else String c EmptyString :: rest
      | [] => [String c EmptyString]
      end
  end.

(** [for x in v] *)
Definition items (v : value) : list string :=
  match v with
  | VList l => l
  | VStr s => chars_of s
  end.

(** A row [{"type": ..., "value": ...}] of the requirement summary. *)
Record CsvRow : Type := mkCsvRow {
  csv_type : string;
  csv_value : string
}.

(** [csv_rows = [... for a in ra["actors"]] + [... for m in ra["missing_info"]]];
    a key that is not in [ra] raises [KeyError], here [None]. *)
Definition csv_rows (ra : gmap string value) : option (list CsvRow) :=
  actors ← ra !! "actors";
  missing_info ← ra !! "missing_info";
  Some ((mkCsvRow "actor" <$> items actors)
          ++ (mkCsvRow "missing_info" <$> items missing_info)).

(** [f"{n}"] for a non-negative [n]. *)
Definition fmt_d (n : nat) : string :=
  NilEmpty.string_of_uint (Nat.to_uint n).

(** [sum(1 for a in clarify_answers.values() if a)] *)
Definition answered (clarify_answers : gmap string string) : nat :=
  size (filter (fun kv : string * string => kv.2 <> "") clarify_answers).

(** The body of [if st.button("Apply answers and regenerate tests")]: the
    updated requirement, the design and its table.  A [str] under
    "assumptions" cannot be added to a list ([TypeError], here [None]). *)
Definition apply_answers (ra : gmap string value)
    (clarify_answers : gmap string string)
  : option (gmap string value * TestDesign * list Row) :=
  match default (VList []) (ra !! "assumptions") with
  | VList l =>
      let ra :=
        <["assumptions" :=
            VList (l ++ ["Answered clarifications: "
                           +:+ fmt_d (answered clarify_answers)])]> ra in
      td ← generate_tests ra;
      Some (ra, td, df_from_tests td)
  | VStr _ => None
  end.

Section Page.

Variable lower : string -> string.

(** [st.text_input(label, "")]: the text now in the widget with this
    label. *)
Variable text_input : string -> string.

(** [for q in ra["clarifying_questions"]: clarify_answers[q] = ...], from
    the empty [clarify_answers]. *)
Definition collect_answers (questions : list string) : gmap string string :=
  fold_left
    (fun clarify_answers q =>
       <[q := text_input ("Answer: " +:+ q)]> clarify_answers)
    questions ∅.

(** The branch [mode == "Requirement Analysis"], run inside [if run:]: the
    rows of the summary CSV and, when [st.button("Apply answers and
    regenerate tests")] returns [apply = true], the regenerated design.
    [page] below gives [apply] its value in a run. *)
Definition requirement_analysis_mode (input_text : string) (apply : bool)
  : option (list CsvRow
            * option (gmap string value * TestDesign * list Row)) :=
  let ra := parse_requirement lower input_text in
  rows ← csv_rows ra;
  questions ← ra !! "clarifying_questions";
  let clarify_answers := collect_answers (items questions) in
  if apply
  then r ← apply_answers ra clarify_answers; Some (rows, Some r)
  else Some (rows, None).

(** The branch [mode == "Test Design"]. *)
Definition test_design_mode (input_text : string)
  : option (gmap string value * TestDesign * list Row) :=
  let ra := parse_requirement lower input_text in
  td ← generate_tests ra;
  Some (ra, td, df_from_tests td).

End Page.




(** * Properties *)

(** ** The substring test *)

Lemma startswith_spec (p s : string) :
  startswith s p = true <-> exists post, s = p +:+ post.
Proof.
  revert s. induction p as [|a p IH]; intros s; simpl.
  - split; [intros _; by exists s | done].
  - destruct s as [|b s].
    + split; [done | intros [post H]; discriminate].
    + destruct (Ascii.eqb_spec a b) as [->|Hne].
      * rewrite IH. split; intros [post H]; exists post.
        -- by rewrite H.
        -- by injection H.
      * split; [done | intros [post H]; injection H; congruence].
Qed.

Lemma str_in_spec (sub s : string) :
  str_in sub s = true <-> occurs_in sub s.
Proof.
  unfold occurs_in. induction s as [|c s IH]; simpl.
  - rewrite orb_false_r, startswith_spec. split.
    + intros [post H]. by exists "", post.
    + intros [[|c pre] [post H]]; [eauto | discriminate].
  - rewrite orb_true_iff, startswith_spec, IH. split.
    + intros [[post H] | (pre & post & H)].
      * by exists "", post.
      * exists (String c pre), post. by rewrite H.
    + intros [[|c' pre] [post H]].
      * left. by exists post.
      * right. exists pre, post. by injection H.
Qed.

Lemma str_in_false (sub s : string) :
  str_in sub s = false <-> ~ occurs_in sub s.
Proof. rewrite <- str_in_spec. by destruct (str_in sub s). Qed.

Example join_two : join "; " ["a"; "b"] = "a; b".
Proof. reflexivity. Qed.

Example join_none : join " | " [] = "".
Proof. reflexivity. Qed.

Example str_in_empty : str_in "" "" = true.
Proof. reflexivity. Qed.

Example fmt_03d_7 : fmt_03d 7 = "007".
Proof. reflexivity. Qed.

Example fmt_03d_1234 : fmt_03d 1234 = "1234".
Proof. reflexivity. Qed.

(** ** parse_requirement *)

Ltac case_substrings :=
  repeat match goal with
         | |- context [str_in ?a ?b] => destruct (str_in a b)
         end.

Lemma ascii_lower_agrees : agrees_on_ascii ascii_lower.
Proof. intros s _. reflexivity. Qed.

Lemma missing_of_matched (text_l : string) :
  missing_of text_l = matched_messages text_l.
Proof.
  unfold missing_of, matched_messages, cond_password, cond_lockout, cond_otp.
  case_substrings; reflexivity.
Qed.

Lemma matched_nil_iff (text_l : string) :
  matched_messages text_l = [] <->
  cond_password text_l || cond_lockout text_l || cond_otp text_l = false.
Proof.
  unfold matched_messages.
  destruct (cond_password text_l), (cond_lockout text_l), (cond_otp text_l);
    simpl; split; congruence.
Qed.

Lemma list_or_missing (text_l : string) :
  list_or (missing_of text_l) [msg_default] = spec_missing_info text_l.
Proof.
  rewrite missing_of_matched. unfold spec_missing_info, matched_messages.
  destruct (cond_password text_l), (cond_lockout text_l), (cond_otp text_l);
    reflexivity.
Qed.

Section ParserProperties.

Variable lower : string -> string.

Lemma parse_actors (t : string) :
  parse_requirement lower t !! "actors" = Some (VList (actors_of (lower t))).
Proof. reflexivity. Qed.

Lemma parse_functional_tags (t : string) :
  parse_requirement lower t !! "functional_tags"
  = Some (VList (functional_tags_of (lower t))).
Proof. reflexivity. Qed.

Lemma parse_missing_info (t : string) :
  parse_requirement lower t !! "missing_info"
  = Some (VList (list_or (missing_of (lower t)) [msg_default])).
Proof. reflexivity. Qed.

Lemma parse_dom (t : string) :
  dom (parse_requirement lower t) = requirement_keys.
Proof. reflexivity. Qed.

End ParserProperties.

(** C3: the missing-info list is the ordered subset of the three condition
    messages whose condition holds on the lowercased text; when no condition
    holds it is the default session-timeout message alone, and the default
    message never stands beside a condition message. *)
Theorem missing_info_conditions (lower : string -> string) (t : string) :
  let text_l := lower t in
  let any_condition :=
    cond_password text_l || cond_lockout text_l || cond_otp text_l in
  exists l : list string,
    parse_requirement lower t !! "missing_info" = Some (VList l)
    /\ l = spec_missing_info text_l
    /\ (any_condition = false -> l = [msg_default])
    /\ (any_condition = true -> l = matched_messages text_l /\ msg_default ∉ l).
Proof.
  intros text_l any_condition.
  exists (spec_missing_info text_l). split_and!.
  - rewrite parse_missing_info. by rewrite list_or_missing.
  - done.
  - unfold spec_missing_info. fold any_condition. by intros ->.
  - unfold spec_missing_info. fold any_condition. intros Hany. rewrite Hany.
    split; [done|]. revert Hany. unfold any_condition, matched_messages.
    destruct (cond_password text_l), (cond_lockout text_l), (cond_otp text_l);
      intros Hany; try discriminate Hany; compute_done.
Qed.

(** C5: the actors list starts with "User", has one or two entries, and
    holds "Admin" exactly when "admin" occurs in the lowercased text. *)
Theorem actors_shape (lower : string -> string) (t : string) :
  exists l : list string,
    parse_requirement lower t !! "actors" = Some (VList l)
    /\ l !! 0%nat = Some "User"
    /\ (length l = 1%nat \/ length l = 2%nat)
    /\ ("Admin" ∈ l <-> occurs_in "admin" (lower t)).
Proof.
  exists (actors_of (lower t)). rewrite parse_actors, <- str_in_spec.
  unfold actors_of. destruct (str_in "admin" (lower t)); simpl.
  - split_and!; [done | done | by right |]. split; [done | set_solver].
  - split_and!; [done | done | by left |]. split; [|done].
    intros H. exfalso. revert H. compute_done.
Qed.

(** C6: the functional tags are "authentication", then "otp" or "login"
    by whether "otp" occurs in the lowercased text, then "lockout" or
    "session" by whether "lock" occurs in it. *)
Theorem functional_tags_shape (lower : string -> string) (t : string) :
  exists second third : string,
    parse_requirement lower t !! "functional_tags"
      = Some (VList ["authentication"; second; third])
    /\ (occurs_in "otp" (lower t) /\ second = "otp"
        \/ ~ occurs_in "otp" (lower t) /\ second = "login")
    /\ (occurs_in "lock" (lower t) /\ third = "lockout"
        \/ ~ occurs_in "lock" (lower t) /\ third = "session").
Proof.
  rewrite parse_functional_tags. unfold functional_tags_of.
  do 2 eexists. split; [reflexivity|].
  rewrite <- !str_in_spec.
  destruct (str_in "otp" (lower t)), (str_in "lock" (lower t));
    split; (by left) || (right; split; [discriminate | done]).
Qed.

(** C10: the missing-info list has between one and three entries, every
    entry is one of the four fixed messages, and the default message, when
    present, is the only entry. *)
Theorem missing_info_bounds (lower : string -> string) (t : string) :
  exists l : list string,
    parse_requirement lower t !! "missing_info" = Some (VList l)
    /\ (1 <= length l <= 3)%nat
    /\ (msg_default ∈ l -> l = [msg_default])
    /\ l ⊆ [msg_password; msg_lockout; msg_otp; msg_default].
Proof.
  exists (spec_missing_info (lower t)).
  rewrite parse_missing_info, list_or_missing.
  unfold spec_missing_info, matched_messages.
  destruct (cond_password (lower t)), (cond_lockout (lower t)),
    (cond_otp (lower t)); simpl;
    (split_and!; [done | lia | lia | | compute_done]);
    first [ done | intros H; exfalso; revert H; compute_done ].
Qed.

(** C9: the analysis depends on the text only through its lowercase form:
    texts with equal lowercase forms get equal records. *)
Theorem parse_case_insensitive (lower : string -> string) (t1 t2 : string) :
  lower t1 = lower t2 ->
  parse_requirement lower t1 = parse_requirement lower t2.
Proof. unfold parse_requirement. by intros ->. Qed.

Lemma parse_case_insensitive_witness :
  ascii_lower "ADMIN must Lock" = ascii_lower "admin MUST lock"
  /\ parse_requirement ascii_lower "ADMIN must Lock"
     = parse_requirement ascii_lower "admin MUST lock".
Proof.
  split; [reflexivity|].
  apply (parse_case_insensitive ascii_lower). reflexivity.
Defined.

(** C7: every text is analysed into a record with all eleven fields, and the
    empty text gives the default branches: the single actor "User", the tags
    "authentication", "login", "session", and the default session-timeout
    message alone. *)
Theorem parse_total (lower : string -> string) :
  agrees_on_ascii lower ->
  (forall t, dom (parse_requirement lower t) = requirement_keys)
  /\ parse_requirement lower "" !! "actors" = Some (VList ["User"])
  /\ parse_requirement lower "" !! "functional_tags"
     = Some (VList ["authentication"; "login"; "session"])
  /\ parse_requirement lower "" !! "missing_info" = Some (VList [msg_default]).
Proof.
  intros Hlower. split; [apply parse_dom|].
  rewrite parse_actors, parse_functional_tags, parse_missing_info.
  rewrite (Hlower "") by reflexivity. done.
Qed.

Lemma parse_total_witness :
  agrees_on_ascii ascii_lower
  /\ (forall t, dom (parse_requirement ascii_lower t) = requirement_keys)
  /\ parse_requirement ascii_lower "" !! "actors" = Some (VList ["User"])
  /\ parse_requirement ascii_lower "" !! "functional_tags"
     = Some (VList ["authentication"; "login"; "session"])
  /\ parse_requirement ascii_lower "" !! "missing_info"
     = Some (VList [msg_default]).
Proof.
  split; [intros s _; reflexivity|].
  apply (parse_total ascii_lower). intros s _. reflexivity.
Defined.

(** The default sentence is ASCII, and this is its lowercase form. *)
Lemma default_text_lower (lower : string -> string) :
  agrees_on_ascii lower ->
  lower default_text
  = "users must login using email and password; admins can require otp. lock account after too many failures. redirect to dashboard on success.".
Proof. intros Hlower. rewrite Hlower by reflexivity. reflexivity. Qed.

(** C2 (as the code has it): on the default sentence the actors are "User"
    and "Admin", the tags are "authentication", "otp", "lockout", and all
    three conditions hold, so the missing-info list is the password, lockout
    and otp messages in that order. *)
Theorem default_text_analysis (lower : string -> string) :
  agrees_on_ascii lower ->
  parse_requirement lower default_text !! "actors"
    = Some (VList ["User"; "Admin"])
  /\ parse_requirement lower default_text !! "functional_tags"
     = Some (VList ["authentication"; "otp"; "lockout"])
  /\ parse_requirement lower default_text !! "missing_info"
     = Some (VList [msg_password; msg_lockout; msg_otp]).
Proof.
  intros Hlower.
  rewrite parse_actors, parse_functional_tags, parse_missing_info.
  rewrite (default_text_lower lower Hlower).
  split_and!; vm_compute; reflexivity.
Qed.

Lemma default_text_analysis_witness :
  agrees_on_ascii ascii_lower
  /\ parse_requirement ascii_lower default_text !! "actors"
     = Some (VList ["User"; "Admin"])
  /\ parse_requirement ascii_lower default_text !! "functional_tags"
     = Some (VList ["authentication"; "otp"; "lockout"])
  /\ parse_requirement ascii_lower default_text !! "missing_info"
     = Some (VList [msg_password; msg_lockout; msg_otp]).
Proof.
  split; [intros s _; reflexivity|].
  apply (default_text_analysis ascii_lower). intros s _. reflexivity.
Defined.

(** C2 as stated fails: the default sentence is ASCII, it holds "password"
    without "complex" and "lock" without "attempt", so the missing-info list
    is not the otp message alone. *)
Lemma default_text_missing_info_counterexample :
  is_ascii default_text = true
  /\ parse_requirement ascii_lower default_text !! "missing_info"
     <> Some (VList [msg_otp]).
Proof. split; [reflexivity|]. vm_compute. discriminate. Qed.

(** ** generate_tests *)

Lemma bump_lookup (counts counts' : gmap string Z) (k k' : string) :
  bump counts k = Some counts' ->
  counts' !! k' = (fun n => if decide (k = k') then n + 1 else n) <$> counts !! k'.
Proof.
  unfold bump. destruct (counts !! k) as [n|] eqn:Hk; simpl; [|done].
  intros [= <-]. rewrite lookup_insert. case_decide as Hkk.
  - subst k'. by rewrite Hk.
  - by destruct (counts !! k').
Qed.

(** X1: the tally loop never fails when every risk is a key of [counts], and
    adds to each key the number of cases that carry it. *)
Lemma tally_counts (ts : list TestCase) (counts : gmap string Z) :
  (forall t, t ∈ ts -> is_Some (counts !! tc_risk t)) ->
  exists counts',
    tally counts ts = Some counts'
    /\ forall k, counts' !! k = (fun n => n + risk_count k ts) <$> counts !! k.
Proof.
  revert counts. induction ts as [|t ts IH]; intros counts Hkeys; simpl.
  - exists counts. split; [done|]. intros k. unfold risk_count. simpl.
    destruct (counts !! k); simpl; f_equal; lia.
  - destruct (Hkeys t) as [n Hn]; [by left|].
    unfold bump at 1. rewrite Hn. simpl.
    assert (Hb : bump counts (tc_risk t) = Some (<[tc_risk t := n + 1]> counts))
      by (unfold bump; by rewrite Hn).
    destruct (IH (<[tc_risk t := n + 1]> counts)) as (counts' & Ht & Hc).
    { intros t' Ht'. rewrite (bump_lookup _ _ _ _ Hb).
      destruct (Hkeys t') as [m ->]; [by right | by eexists]. }
    exists counts'. split; [done|]. intros k.
    rewrite Hc, (bump_lookup _ _ _ _ Hb).
    unfold risk_count. rewrite filter_cons.
    destruct (counts !! k) as [m|]; simpl; [|done].
    f_equal. repeat case_decide; simpl; try congruence; lia.
Qed.

Lemma tally_tests :
  tally (<["High" := 0]> (<["Medium" := 0]> (<["Low" := 0]> ∅))) tests
  = Some (<["High" := 4]> (<["Medium" := 3]> (<["Low" := 1]> ∅))).
Proof. vm_compute. reflexivity. Qed.

Lemma generate_tests_eq (r : gmap string value) :
  generate_tests r
  = Some {| test_cases := tests;
            summary := <["high" := 4]> (<["medium" := 3]> (<["low" := 1]> ∅));
            assumptions := default (VList []) (r !! "assumptions") |}.
Proof. unfold generate_tests. rewrite tally_tests. reflexivity. Qed.

(** X1: the witness of [tally_counts] on the catalog: every risk of the
    catalog is a key of the initial counts. *)
Lemma tally_counts_witness :
  exists counts',
    tally (<["High" := 0]> (<["Medium" := 0]> (<["Low" := 0]> ∅))) tests
    = Some counts'
    /\ forall k,
         counts' !! k
         = (fun n => n + risk_count k tests)
             <$> (<["High" := 0]> (<["Medium" := 0]> (<["Low" := 0]> ∅))
                  : gmap string Z) !! k.
Proof.
  apply (tally_counts tests). intros t Ht. unfold tests in Ht.
  repeat (apply elem_of_cons in Ht as [-> | Ht]);
    [..| by apply elem_of_nil in Ht]; by eexists.
Defined.

(** C1 (as the code has it): the catalog has four cases of risk "High",
    three of "Medium" and one of "Low" (the risks of TC001..TC008 are, in
    order, High, High, Medium, High, High, Low, Medium, Medium), and the
    summary tallies the risk field over the catalog: high 4, medium 3,
    low 1. *)
Theorem summary_tally (r : gmap string value) :
  exists td : TestDesign,
    generate_tests r = Some td
    /\ summary td = <["high" := 4]> (<["medium" := 3]> (<["low" := 1]> ∅))
    /\ (fun t => (tc_id t, tc_risk t)) <$> test_cases td
       = [ ("TC001", "High"); ("TC002", "High"); ("TC003", "Medium");
           ("TC004", "High"); ("TC005", "High"); ("TC006", "Low");
           ("TC007", "Medium"); ("TC008", "Medium") ]
    /\ summary td !! "high" = Some (risk_count "High" (test_cases td))
    /\ summary td !! "medium" = Some (risk_count "Medium" (test_cases td))
    /\ summary td !! "low" = Some (risk_count "Low" (test_cases td))
    /\ length (test_cases td) = 8%nat.
Proof. rewrite generate_tests_eq. eexists. split; [reflexivity|]. done. Qed.

(** C1 as stated fails: the summary of the design generated from the
    analysis of the default sentence is not high 5, medium 2, low 1. *)
Lemma summary_counterexample :
  summary <$> generate_tests (parse_requirement ascii_lower default_text)
  <> Some (<["high" := 5]> (<["medium" := 2]> (<["low" := 1]> ∅))).
Proof.
  rewrite generate_tests_eq. simpl. intros H.
  apply (f_equal (fun o : option (gmap string Z) => m ← o; m !! "high")) in H.
  vm_compute in H. discriminate H.
Qed.

(** C4: every design carries the same eight cases TC001..TC008 in that
    order, whatever the requirement; its assumptions are the requirement's,
    or the empty list when the requirement has none; two requirements with
    the same assumptions give the same design; and exactly TC005 and TC007
    are not automation candidates. *)
Theorem generate_tests_fixed (r : gmap string value) :
  exists td : TestDesign,
    generate_tests r = Some td
    /\ tc_id <$> test_cases td
       = ["TC001"; "TC002"; "TC003"; "TC004"; "TC005"; "TC006"; "TC007"; "TC008"]
    /\ (forall r', test_cases <$> generate_tests r' = Some (test_cases td))
    /\ (forall r', r' !! "assumptions" = r !! "assumptions" ->
                   generate_tests r' = Some td)
    /\ (forall a, r !! "assumptions" = Some a -> assumptions td = a)
    /\ (r !! "assumptions" = None -> assumptions td = VList [])
    /\ (forall t, t ∈ test_cases td ->
          (tc_automation_candidate t = false <->
           tc_id t = "TC005" \/ tc_id t = "TC007")).
Proof.
  rewrite generate_tests_eq. eexists. split; [reflexivity|]. simpl.
  split_and!.
  - reflexivity.
  - intros r'. by rewrite generate_tests_eq.
  - intros r' Hr'. by rewrite generate_tests_eq, Hr'.
  - by intros a ->.
  - by intros ->.
  - intros t Ht. unfold tests in Ht.
    repeat (apply elem_of_cons in Ht as [-> | Ht]);
      [..| by apply elem_of_nil in Ht];
      simpl;
      (split;
       [ intros H; first [discriminate H | by left | by right]
       | intros [H|H]; first [discriminate H | reflexivity] ]).
Qed.

(** ** df_from_tests *)

Lemma append_rows {A B} (f : A -> B) (l : list A) (acc : list B) :
  fold_left (fun rows t => rows ++ [f t]) l acc = acc ++ map f l.
Proof.
  revert acc. induction l as [|x l IH]; intros acc; simpl.
  - by rewrite app_nil_r.
  - by rewrite IH, <- app_assoc.
Qed.

Lemma df_from_tests_map (d : TestDesign) :
  df_from_tests d = map row_of (test_cases d).
Proof. unfold df_from_tests. by rewrite append_rows. Qed.

(** C8: the projection gives one row per test case, in order; a row joins
    the preconditions with "; " and the steps with " | " and copies the
    scalar fields; the generated design gives eight rows whose ids are "TC"
    followed by the row's position, counted from one, on three digits. *)
Theorem df_from_tests_rows (d : TestDesign) :
  length (df_from_tests d) = length (test_cases d)
  /\ (forall (i : nat) (t : TestCase),
        test_cases d !! i = Some t ->
        exists row : Row,
          df_from_tests d !! i = Some row
          /\ row_id row = tc_id t
          /\ row_title row = tc_title t
          /\ row_preconditions row = join "; " (tc_preconditions t)
          /\ row_steps row = join " | " (tc_steps t)
          /\ row_test_data row = tc_test_data t
          /\ row_expected row = tc_expected t
          /\ row_risk row = tc_risk t
          /\ row_automation_candidate row = tc_automation_candidate t
          /\ row_automation_reason row = tc_automation_reason t)
  /\ (forall r : gmap string value,
        exists td : TestDesign,
          generate_tests r = Some td
          /\ length (df_from_tests td) = 8%nat
          /\ forall i : nat, (i < 8)%nat ->
               row_id <$> df_from_tests td !! i
               = Some ("TC" +:+ fmt_03d (i + 1))).
Proof.
  rewrite df_from_tests_map. split_and!.
  - by rewrite length_map.
  - intros i t Ht. exists (row_of t). split; [|done].
    change (map row_of (test_cases d)) with (row_of <$> test_cases d).
    by rewrite list_lookup_fmap, Ht.
  - intros r. rewrite generate_tests_eq. eexists. split; [reflexivity|].
    rewrite df_from_tests_map. simpl. split; [reflexivity|].
    intros i Hi. do 8 (destruct i as [|i]; [reflexivity|]). lia.
Qed.

(** ** More on the tally loop *)

(** A key that [counts] lacks is still lacking after [bump]. *)
Lemma bump_None (counts counts' : gmap string Z) (k k' : string) :
  bump counts k = Some counts' -> counts !! k' = None -> counts' !! k' = None.
Proof. intros Hb Hk'. by rewrite (bump_lookup _ _ _ _ Hb), Hk'. Qed.

(** X2: the tally loop fails (KeyError) as soon as one case carries a risk
    that is not a key of [counts], wherever the case stands in the list. *)
Theorem tally_missing_key (ts : list TestCase) (counts : gmap string Z)
    (t : TestCase) :
  t ∈ ts -> counts !! tc_risk t = None -> tally counts ts = None.
Proof.
  revert counts. induction ts as [|t' ts IH]; intros counts Ht Hk.
  - by apply elem_of_nil in Ht.
  - simpl. destruct (bump counts (tc_risk t')) as [counts'|] eqn:Hb; [|done].
    simpl. apply elem_of_cons in Ht as [-> | Ht].
    + unfold bump in Hb. by rewrite Hk in Hb.
    + apply IH; [done|]. by apply (bump_None _ _ _ _ Hb).
Qed.

Lemma tally_missing_key_witness :
  let critical :=
    mkTestCase "TC009" "Session fixation" [] ["1. Reuse a session id"]
      "TD09" "Session is rejected" "Critical" true "Scriptable" in
  tally (<["High" := 0]> (<["Medium" := 0]> (<["Low" := 0]> ∅)))
    (tests ++ [critical]) = None.
Proof.
  intros critical.
  apply (tally_missing_key (tests ++ [critical]) _ critical).
  - apply elem_of_app. right. by apply list_elem_of_singleton.
  - reflexivity.
Defined.

(** The three counters stay present and their sum grows by the number of
    cases. *)
Lemma tally_sum_from (ts : list TestCase) (counts : gmap string Z) (h m l : Z) :
  counts !! "High" = Some h ->
  counts !! "Medium" = Some m ->
  counts !! "Low" = Some l ->
  (forall t, t ∈ ts -> tc_risk t ∈ ["High"; "Medium"; "Low"]) ->
  exists (counts' : gmap string Z) (h' m' l' : Z),
    tally counts ts = Some counts'
    /\ counts' !! "High" = Some h'
    /\ counts' !! "Medium" = Some m'
    /\ counts' !! "Low" = Some l'
    /\ h' + m' + l' = h + m + l + Z.of_nat (length ts).
Proof.
  revert counts h m l.
  induction ts as [|t ts IH]; intros counts h m l Hh Hm Hl Hrisk; simpl.
  - exists counts, h, m, l. split_and!; try done. lia.
  - assert (Ht : tc_risk t ∈ ["High"; "Medium"; "Low"]) by (apply Hrisk; by left).
    assert (Hts : forall t', t' ∈ ts -> tc_risk t' ∈ ["High"; "Medium"; "Low"])
      by (intros t' Ht'; apply Hrisk; by right).
    assert (exists counts1 h1 m1 l1,
               bump counts (tc_risk t) = Some counts1
               /\ counts1 !! "High" = Some h1
               /\ counts1 !! "Medium" = Some m1
               /\ counts1 !! "Low" = Some l1
               /\ h1 + m1 + l1 = h + m + l + 1)
      as (counts1 & h1 & m1 & l1 & Hb & Hh1 & Hm1 & Hl1 & Hsum).
    { repeat (apply elem_of_cons in Ht as [-> | Ht]);
        [ exists (<["High" := h + 1]> counts), (h + 1), m, l
        | exists (<["Medium" := m + 1]> counts), h, (m + 1), l
        | exists (<["Low" := l + 1]> counts), h, m, (l + 1)
        | by apply elem_of_nil in Ht ];
        (split_and!;
         [ unfold bump; by rewrite ?Hh, ?Hm, ?Hl
         | by simplify_map_eq | by simplify_map_eq | by simplify_map_eq
         | lia ]). }
    rewrite Hb. simpl.
    destruct (IH counts1 h1 m1 l1 Hh1 Hm1 Hl1 Hts)
      as (counts' & h' & m' & l' & Ht' & Hh' & Hm' & Hl' & Hsum').
    exists counts', h', m', l'. split_and!; try done. lia.
Qed.

(** X3: for any catalog whose risks are all "High", "Medium" or "Low", the
    tally from zero ends with three counters that add up to the number of
    cases. *)
Theorem tally_sum (ts : list TestCase) :
  (forall t, t ∈ ts -> tc_risk t ∈ ["High"; "Medium"; "Low"]) ->
  exists (counts : gmap string Z) (h m l : Z),
    tally (<["High" := 0]> (<["Medium" := 0]> (<["Low" := 0]> ∅))) ts
    = Some counts
    /\ counts !! "High" = Some h
    /\ counts !! "Medium" = Some m
    /\ counts !! "Low" = Some l
    /\ h + m + l = Z.of_nat (length ts).
Proof.
  intros Hrisk.
  destruct (tally_sum_from ts
              (<["High" := 0]> (<["Medium" := 0]> (<["Low" := 0]> ∅)))
              0 0 0)
    as (counts & h & m & l & Ht & Hh & Hm & Hl & Hsum);
    [reflexivity | reflexivity | reflexivity | exact Hrisk |].
  exists counts, h, m, l. split_and!; first [done | lia].
Qed.

Lemma tests_risks (t : TestCase) :
  t ∈ tests -> tc_risk t ∈ ["High"; "Medium"; "Low"].
Proof.
  intros Ht. unfold tests in Ht.
  repeat (apply elem_of_cons in Ht as [-> | Ht]);
    [..| by apply elem_of_nil in Ht]; simpl; compute_done.
Qed.

Lemma tally_sum_witness :
  exists (counts : gmap string Z) (h m l : Z),
    tally (<["High" := 0]> (<["Medium" := 0]> (<["Low" := 0]> ∅))) tests
    = Some counts
    /\ counts !! "High" = Some h
    /\ counts !! "Medium" = Some m
    /\ counts !! "Low" = Some l
    /\ h + m + l = Z.of_nat (length tests).
Proof. apply (tally_sum tests). exact tests_risks. Defined.

(** ** Strings *)

Lemma str_app_assoc (a b c : string) : (a +:+ b) +:+ c = a +:+ b +:+ c.
Proof. induction a as [|x a IH]; [done | exact (f_equal (String x) IH)]. Qed.

Lemma str_app_nil_r (a : string) : a +:+ "" = a.
Proof. induction a as [|x a IH]; [done | exact (f_equal (String x) IH)]. Qed.

Lemma str_app_length (a b : string) :
  String.length (a +:+ b) = (String.length a + String.length b)%nat.
Proof. induction a as [|x a IH]; [done | exact (f_equal S IH)]. Qed.

Lemma occurs_in_refl (s : string) : occurs_in s s.
Proof. exists "", "". simpl. by rewrite str_app_nil_r. Qed.

Lemma occurs_in_trans (a b c : string) :
  occurs_in a b -> occurs_in b c -> occurs_in a c.
Proof.
  intros (p1 & q1 & ->) (p2 & q2 & ->).
  exists (p2 +:+ p1), (q1 +:+ q2). by rewrite !str_app_assoc.
Qed.

(** ** The keyword tests work on substrings, not on words *)

(** X4: a keyword is found inside any longer word of the lowercased text:
    whatever run [w] of the text holds "lock", "otp" or "admin" (as
    "blocked", "footpath" or "badminton" do), the text gets the tag
    "lockout", the tag "otp" or the actor "Admin". *)
Theorem keyword_inside_word (lower : string -> string) (t w : string) :
  occurs_in w (lower t) ->
  exists actors tags : list string,
    parse_requirement lower t !! "actors" = Some (VList actors)
    /\ parse_requirement lower t !! "functional_tags" = Some (VList tags)
    /\ (occurs_in "admin" w -> "Admin" ∈ actors)
    /\ (occurs_in "otp" w -> tags !! 1%nat = Some "otp")
    /\ (occurs_in "lock" w -> tags !! 2%nat = Some "lockout").
Proof.
  intros Hw. do 2 eexists.
  rewrite parse_actors, parse_functional_tags.
  split; [reflexivity|]. split; [reflexivity|].
  unfold actors_of, functional_tags_of. split_and!; intros Hk;
    apply (fun H => occurs_in_trans _ _ _ H Hw), str_in_spec in Hk;
    rewrite Hk; [set_solver | done | done].
Qed.

Example admin_in_badminton : str_in "admin" "badminton" = true.
Proof. reflexivity. Qed.

Example otp_in_footpath : str_in "otp" "footpath" = true.
Proof. reflexivity. Qed.

Example lock_in_blocked : str_in "lock" "blocked" = true.
Proof. reflexivity. Qed.

Example otp_not_in_laptop : str_in "otp" "laptop" = false.
Proof. reflexivity. Qed.

(** The run "blocked footpath by the badminton" holds all three keywords,
    none of them as a word. *)
Lemma keyword_inside_word_witness :
  let t := "Blocked footpath by the Badminton club" in
  let w := "blocked footpath by the badminton" in
  occurs_in w (ascii_lower t)
  /\ occurs_in "admin" w /\ occurs_in "otp" w /\ occurs_in "lock" w
  /\ exists actors tags : list string,
       parse_requirement ascii_lower t !! "actors" = Some (VList actors)
       /\ parse_requirement ascii_lower t !! "functional_tags"
          = Some (VList tags)
       /\ (occurs_in "admin" w -> "Admin" ∈ actors)
       /\ (occurs_in "otp" w -> tags !! 1%nat = Some "otp")
       /\ (occurs_in "lock" w -> tags !! 2%nat = Some "lockout").
Proof.
  intros t w.
  assert (H : occurs_in w (ascii_lower t)) by (apply str_in_spec; reflexivity).
  split; [exact H|].
  split; [apply str_in_spec; reflexivity|].
  split; [apply str_in_spec; reflexivity|].
  split; [apply str_in_spec; reflexivity|].
  exact (keyword_inside_word ascii_lower t w H).
Defined.

(** X5: the tags and the missing-info list agree: the otp message is listed
    only with the tag "otp", the lockout message only with the tag
    "lockout", and the default message only when neither the password nor
    the lockout nor the otp message is. *)
Theorem tags_agree_with_missing_info (lower : string -> string) (t : string) :
  exists tags missing : list string,
    parse_requirement lower t !! "functional_tags" = Some (VList tags)
    /\ parse_requirement lower t !! "missing_info" = Some (VList missing)
    /\ (msg_otp ∈ missing -> tags !! 1%nat = Some "otp")
    /\ (msg_lockout ∈ missing -> tags !! 2%nat = Some "lockout")
    /\ (tags !! 1%nat = Some "login" -> msg_otp ∉ missing)
    /\ (tags !! 2%nat = Some "session" -> msg_lockout ∉ missing).
Proof.
  do 2 eexists. rewrite parse_functional_tags, parse_missing_info.
  split; [reflexivity|]. split; [reflexivity|].
  unfold functional_tags_of, missing_of.
  case_substrings; simpl;
    (split_and!; intros H; first [ done | compute_done | exfalso; revert H; compute_done ]).
Qed.

(** ** The Test Design mode *)

(** X6: in Test Design mode the design and its table are the same for every
    input text: only the parsed requirement shown beside them depends on the
    text.  The design carries the parser's one assumption and the table has
    eight rows. *)
Theorem test_design_ignores_text :
  exists (td : TestDesign) (tdf : list Row),
    (forall (lower : string -> string) (input_text : string),
       test_design_mode lower input_text
       = Some (parse_requirement lower input_text, td, tdf))
    /\ test_cases td = tests
    /\ assumptions td
       = VList ["Email is unique username (inferred, confidence=0.65)"]
    /\ tdf = df_from_tests td
    /\ length tdf = 8%nat.
Proof.
  set (td := {| test_cases := tests;
                summary := <["high" := 4]> (<["medium" := 3]> (<["low" := 1]> ∅));
                assumptions :=
                  VList ["Email is unique username (inferred, confidence=0.65)"] |}).
  exists td, (df_from_tests td). split_and!.
  - intros lower input_text. unfold test_design_mode.
    rewrite generate_tests_eq. reflexivity.
  - reflexivity.
  - reflexivity.
  - reflexivity.
  - reflexivity.
Qed.

(** ** Joined cells *)

Lemma join_cons (sep x y : string) (rest : list string) :
  join sep (x :: y :: rest) = x +:+ sep +:+ join sep (y :: rest).
Proof. reflexivity. Qed.

Lemma join_occurs (sep x : string) (l : list string) :
  x ∈ l -> occurs_in x (join sep l).
Proof.
  induction l as [|x0 [|y rest] IH]; intros Hx.
  - by apply elem_of_nil in Hx.
  - apply list_elem_of_singleton in Hx as ->. apply occurs_in_refl.
  - rewrite join_cons. apply elem_of_cons in Hx as [-> | Hx].
    + by exists "", (sep +:+ join sep (y :: rest)).
    + destruct (IH Hx) as (p & q & ->).
      exists (x0 +:+ sep +:+ p), q. by rewrite !str_app_assoc.
Qed.

Lemma join_length (sep : string) (l : list string) :
  String.length (join sep l)
  = (sum_list (String.length <$> l) + String.length sep * (length l - 1))%nat.
Proof.
  induction l as [|x0 [|y rest] IH].
  - simpl. lia.
  - simpl. lia.
  - rewrite join_cons, !str_app_length, IH. simpl. lia.
Qed.

(** X7: nothing is dropped from a row: every precondition of a case occurs
    in the row's preconditions cell and every step in its steps cell, and
    the cells are as long as their items together plus one separator ("; ",
    two characters, or " | ", three) between neighbours. *)
Theorem rows_keep_items (d : TestDesign) :
  Forall2
    (fun (t : TestCase) (row : Row) =>
       (forall p, p ∈ tc_preconditions t -> occurs_in p (row_preconditions row))
       /\ (forall s, s ∈ tc_steps t -> occurs_in s (row_steps row))
       /\ String.length (row_preconditions row)
          = (sum_list (String.length <$> tc_preconditions t)
             + 2 * (length (tc_preconditions t) - 1))%nat
       /\ String.length (row_steps row)
          = (sum_list (String.length <$> tc_steps t)
             + 3 * (length (tc_steps t) - 1))%nat)
    (test_cases d) (df_from_tests d).
Proof.
  rewrite df_from_tests_map.
  induction (test_cases d) as [|t ts IH]; simpl; constructor; [|exact IH].
  split_and!.
  - intros p Hp. by apply join_occurs.
  - intros s Hs. by apply join_occurs.
  - apply (join_length "; ").
  - apply (join_length " | ").
Qed.

(** X8: the projection loses the item boundaries: a case with the two
    preconditions [a] and [b] and the same case with the one precondition
    [a; b] are different cases with the same row, whatever the other
    fields. *)
Theorem row_of_merges_items (i title a b : string) (steps : list string)
    (data expected risk reason : string) (candidate : bool) :
  let t1 :=
    mkTestCase i title [a; b] steps data expected risk candidate reason in
  let t2 :=
    mkTestCase i title [a +:+ "; " +:+ b] steps data expected risk candidate
      reason in
  t1 <> t2 /\ row_of t1 = row_of t2
  /\ df_from_tests (mkTestDesign [t1] ∅ (VList []))
     = df_from_tests (mkTestDesign [t2] ∅ (VList [])).
Proof. intros t1 t2. split_and!; [discriminate | reflexivity | reflexivity]. Qed.

(** ** download_bytes *)

Lemma endswith_spec (s suffix : string) :
  endswith s suffix = true <-> exists pre, s = pre +:+ suffix.
Proof.
  induction s as [|c s IH]; cbn [endswith].
  - rewrite orb_false_r, String.eqb_eq. split.
    + intros <-. by exists "".
    + intros [[|c pre] H]; [done | discriminate].
  - rewrite orb_true_iff, String.eqb_eq, IH. split.
    + intros [<- | [pre ->]]; [by exists "" | by exists (String c pre)].
    + intros [[|c' pre] H]; [by left | right].
      exists pre. by injection H.
Qed.

(** A fresh buffer written once and rewound reads back what was written. *)
Lemma write_seek_read (data : list Byte.byte) :
  (read (seek (write BytesIO_new data) 0)).1 = data.
Proof.
  unfold read, seek, write, BytesIO_new. simpl.
  by rewrite drop_nil, app_nil_r.
Qed.

(** X9: [download_bytes] picks the JSON branch exactly for a file name of
    the form stem + ".json".  When the calls of the chosen branch succeed
    ([json.dumps] and the encoding of its text, or [obj.encode]), the result
    is a buffer rewound to position 0 that holds the encoded payload and
    reads it back whole; when one of them raises, no buffer is returned. *)
Theorem download_bytes_payload (pyobj : Type) (dumps : pyobj -> option string)
    (encode : string -> option (list Byte.byte))
    (obj_encode : pyobj -> option (list Byte.byte))
    (obj : pyobj) (filename : string) :
  let result := download_bytes pyobj dumps encode obj_encode obj filename in
  let holds (data : list Byte.byte) :=
    exists b, result = Some b /\ getvalue b = data /\ tell b = 0%nat
              /\ (read b).1 = data in
  ((exists stem, filename = stem +:+ ".json") ->
   (forall s data, dumps obj = Some s -> encode s = Some data -> holds data)
   /\ (dumps obj = None -> result = None)
   /\ (forall s, dumps obj = Some s -> encode s = None -> result = None))
  /\ (~ (exists stem, filename = stem +:+ ".json") ->
      (forall data, obj_encode obj = Some data -> holds data)
      /\ (obj_encode obj = None -> result = None)).
Proof.
  intros result holds. subst result holds.
  rewrite <- endswith_spec. unfold download_bytes.
  destruct (endswith filename ".json"); split; try done; intros _.
  - split_and!.
    + intros s data Hs Hdata. rewrite Hs. simpl. rewrite Hdata. simpl.
      eexists. split; [reflexivity|].
      split_and!; [| done | apply write_seek_read].
      unfold seek, write, BytesIO_new. simpl. by rewrite drop_nil, app_nil_r.
    + by intros ->.
    + intros s Hs Hdata. rewrite Hs. simpl. by rewrite Hdata.
  - split.
    + intros data ->. simpl. eexists. split; [reflexivity|].
      split_and!; [| done | apply write_seek_read].
      unfold seek, write, BytesIO_new. simpl. by rewrite drop_nil, app_nil_r.
    + by intros ->.
Qed.

(** ** The requirement summary rows *)

(** X10: building the summary rows fails (KeyError) exactly when the record
    lacks "actors" or "missing_info"; otherwise there is one row per actor
    followed by one row per missing-info entry, typed "actor" and
    "missing_info" and holding the entries in their order. *)
Theorem csv_rows_shape (ra : gmap string value) :
  (csv_rows ra = None <->
   ra !! "actors" = None \/ ra !! "missing_info" = None)
  /\ (forall actors missing_info : value,
        ra !! "actors" = Some actors ->
        ra !! "missing_info" = Some missing_info ->
        exists rows : list CsvRow,
          csv_rows ra = Some rows
          /\ csv_value <$> rows = items actors ++ items missing_info
          /\ csv_type <$> rows
             = replicate (length (items actors)) "actor"
               ++ replicate (length (items missing_info)) "missing_info").
Proof.
  unfold csv_rows. split.
  - destruct (ra !! "actors"), (ra !! "missing_info"); simpl;
      split; try done; try (intros [?|?]; done); intros _; by (left + right).
  - intros actors missing_info -> ->. simpl. eexists. split; [reflexivity|].
    rewrite !fmap_app, <- !list_fmap_compose. split.
    + by rewrite !list_fmap_id.
    + f_equal; by apply const_fmap.
Qed.

Lemma parse_clarifying (lower : string -> string) (t : string) :
  parse_requirement lower t !! "clarifying_questions" = Some (VList clarifying).
Proof. reflexivity. Qed.

Lemma parse_assumptions (lower : string -> string) (t : string) :
  parse_requirement lower t !! "assumptions"
  = Some (VList ["Email is unique username (inferred, confidence=0.65)"]).
Proof. reflexivity. Qed.

(** X11: in Requirement Analysis mode, before the apply button is pressed,
    every input text gives a summary of two to five rows: the actor rows
    come first, the first of them for "User", then the missing-info rows, of
    which there is at least one. *)
Theorem requirement_summary_rows (lower text_input : string -> string)
    (input_text : string) :
  exists (rows : list CsvRow) (actors missing_info : list string),
    requirement_analysis_mode lower text_input input_text false
    = Some (rows, None)
    /\ parse_requirement lower input_text !! "actors" = Some (VList actors)
    /\ parse_requirement lower input_text !! "missing_info"
       = Some (VList missing_info)
    /\ rows = (mkCsvRow "actor" <$> actors)
                ++ (mkCsvRow "missing_info" <$> missing_info)
    /\ rows !! 0%nat = Some (mkCsvRow "actor" "User")
    /\ (1 <= length actors <= 2)%nat
    /\ (1 <= length missing_info <= 3)%nat
    /\ (2 <= length rows <= 5)%nat.
Proof.
  unfold requirement_analysis_mode, csv_rows.
  rewrite parse_actors, parse_missing_info, parse_clarifying, list_or_missing.
  exists ((mkCsvRow "actor" <$> actors_of (lower input_text))
            ++ (mkCsvRow "missing_info" <$> spec_missing_info (lower input_text))),
    (actors_of (lower input_text)), (spec_missing_info (lower input_text)).
  split; [reflexivity|].
  split; [reflexivity|]. split; [reflexivity|]. split; [reflexivity|].
  split; [reflexivity|].
  rewrite length_app, !length_fmap.
  assert (Ha : (1 <= length (actors_of (lower input_text)) <= 2)%nat).
  { unfold actors_of. destruct (str_in "admin" (lower input_text)); simpl; lia. }
  assert (Hm : (1 <= length (spec_missing_info (lower input_text)) <= 3)%nat).
  { unfold spec_missing_info, matched_messages.
    destruct (cond_password (lower input_text)),
      (cond_lockout (lower input_text)), (cond_otp (lower input_text));
      simpl; lia. }
  lia.
Qed.

(** ** Clarifications *)

Lemma answered_empty : answered ∅ = 0%nat.
Proof. unfold answered. by rewrite map_filter_empty, map_size_empty. Qed.

(** A new question counts when its answer is not empty. *)
Lemma answered_insert (clarify_answers : gmap string string) (q a : string) :
  clarify_answers !! q = None ->
  answered (<[q := a]> clarify_answers)
  = (answered clarify_answers + if decide (a = "") then 0 else 1)%nat.
Proof.
  intros Hq. unfold answered. rewrite map_filter_insert. simpl.
  destruct (decide (a = "")) as [->|Ha].
  - rewrite decide_False by (intros H; by apply H).
    rewrite delete_id by done. lia.
  - rewrite decide_True by done.
    rewrite map_size_insert_None; [lia|].
    apply map_lookup_filter_None. left. done.
Qed.

Lemma collect_answers_from (text_input : string -> string)
    (questions : list string) (clarify_answers : gmap string string) :
  NoDup questions ->
  (forall q, q ∈ questions -> clarify_answers !! q = None) ->
  answered
    (fold_left
       (fun clarify_answers q =>
          <[q := text_input ("Answer: " +:+ q)]> clarify_answers)
       questions clarify_answers)
  = (answered clarify_answers
     + length (filter (fun q => text_input ("Answer: " +:+ q) <> "") questions))%nat.
Proof.
  revert clarify_answers.
  induction questions as [|q qs IH]; intros m Hnodup Hfresh; simpl.
  - lia.
  - apply NoDup_cons in Hnodup as [Hq Hqs].
    rewrite IH; [|done|].
    + rewrite answered_insert by (apply Hfresh; by left).
      rewrite filter_cons.
      destruct (decide (text_input ("Answer: " +:+ q) = "")) as [Ha|Ha].
      * rewrite decide_False by (intros H; by apply H). lia.
      * rewrite decide_True by done. simpl. lia.
    + intros q' Hq'. rewrite lookup_insert_ne.
      * apply Hfresh. by right.
      * intros ->. done.
Qed.

(** X12: with pairwise distinct questions, the number reported as answered
    is the number of questions whose widget holds a non-empty text; it is at
    most the number of questions. *)
Theorem answered_collect (text_input : string -> string)
    (questions : list string) :
  NoDup questions ->
  answered (collect_answers text_input questions)
  = length (filter (fun q => text_input ("Answer: " +:+ q) <> "") questions)
  /\ (answered (collect_answers text_input questions) <= length questions)%nat.
Proof.
  intros Hnodup. unfold collect_answers.
  rewrite collect_answers_from, answered_empty by done.
  split; [done|]. simpl. apply length_filter.
Qed.

Lemma clarifying_NoDup : NoDup clarifying.
Proof. compute_done. Qed.

Lemma answered_collect_witness :
  let text_input :=
    fun label : string =>
      if String.eqb label "Answer: What is the lockout threshold and lockout duration?"
      then "5 attempts, 15 minutes" else "" in
  answered (collect_answers text_input clarifying)
  = length (filter (fun q => text_input ("Answer: " +:+ q) <> "") clarifying)
  /\ (answered (collect_answers text_input clarifying) <= length clarifying)%nat.
Proof.
  intros text_input. apply (answered_collect text_input clarifying).
  exact clarifying_NoDup.
Defined.


(** X13: applying the answers fails (TypeError) when the record holds a
    string under "assumptions"; otherwise it appends the one line "Answered
    clarifications: n" to the assumptions (to the empty list when the record
    has none), changes no other key of the record, and hands the new
    assumptions to the design, whose table has the eight rows. *)
Theorem apply_answers_effect (ra : gmap string value)
    (clarify_answers : gmap string string) :
  let line :=
    "Answered clarifications: " +:+ fmt_d (answered clarify_answers) in
  (forall s, ra !! "assumptions" = Some (VStr s) ->
             apply_answers ra clarify_answers = None)
  /\ (forall l,
        ra !! "assumptions" = Some (VList l)
        \/ ra !! "assumptions" = None /\ l = [] ->
        exists (ra' : gmap string value) (td : TestDesign) (tdf : list Row),
          apply_answers ra clarify_answers = Some (ra', td, tdf)
          /\ ra' !! "assumptions" = Some (VList (l ++ [line]))
          /\ (forall k, k <> "assumptions" -> ra' !! k = ra !! k)
          /\ assumptions td = VList (l ++ [line])
          /\ test_cases td = tests
          /\ tdf = df_from_tests td
          /\ length tdf = 8%nat).
Proof.
  intros line. unfold apply_answers. split.
  - by intros s ->.
  - intros l Hl.
    assert (default (VList []) (ra !! "assumptions") = VList l) as ->
      by (destruct Hl as [-> | [-> ->]]; done).
    rewrite generate_tests_eq. simpl.
    eexists _, _, _. split; [reflexivity|]. simpl. split_and!.
    + by rewrite lookup_insert_eq.
    + intros k Hk. by rewrite lookup_insert_ne.
    + by rewrite lookup_insert_eq.
    + reflexivity.
    + reflexivity.
    + reflexivity.
Qed.

(** ** One run of the page *)



(** ** Which messages are listed *)

Ltac decide_listed :=
  split;
  [ intros H;
    first [ (split; [reflexivity | discriminate])
          | exfalso; revert H; compute_done ]
  | intros [H1 H2];
    first [ compute_done | discriminate H1 | exfalso; by apply H2 ] ].

(** X15: each condition message is listed exactly when its keyword occurs in
    the lowercased text and its suppressing word does not: "password"
    without "complex", "lock" without "attempt", "otp" without
    "mandatory". *)
Theorem missing_info_membership (lower : string -> string) (t : string) :
  exists missing : list string,
    parse_requirement lower t !! "missing_info" = Some (VList missing)
    /\ (msg_password ∈ missing <->
        occurs_in "password" (lower t) /\ ~ occurs_in "complex" (lower t))
    /\ (msg_lockout ∈ missing <->
        occurs_in "lock" (lower t) /\ ~ occurs_in "attempt" (lower t))
    /\ (msg_otp ∈ missing <->
        occurs_in "otp" (lower t) /\ ~ occurs_in "mandatory" (lower t)).
Proof.
  eexists. rewrite parse_missing_info. split; [reflexivity|].
  rewrite <- !str_in_spec. unfold missing_of.
  case_substrings; simpl; split_and!; decide_listed.
Qed.

(** ** Iterating over a string *)

(** The characters of a string, put together again, are the string. *)
Lemma chars_of_concat (s : string) : String.concat "" (chars_of s) = s.
Proof.
  induction s as [|c s IH]; [done|].
  cbn [chars_of]. destruct (chars_of s) as [|h rest] eqn:Hc.
  - destruct s as [|d s]; [done|].
    cbn [chars_of] in Hc. by destruct (chars_of s), (is_continuation d).
  - destruct s as [|d s]; [done|].
    destruct (is_continuation d).
    + rewrite <- IH. by destruct rest.
    + rewrite <- IH. reflexivity.
Qed.

Example chars_of_utf8 :
  length (chars_of (String "195" (String "169" "a"))) = 2%nat.
Proof. reflexivity. Qed.
